(** * patchclamp: the packaging manifest [setup.py]

    The repository consists of one Python module, [setup.py].  It imports
    [find_packages] and [setup] from [setuptools] and calls [setup] once,
    with five keyword arguments.

    The development has four parts:
    - [PyAst]: the abstract syntax of the Python fragment, with one
      constructor per statement and expression kind the specification
      names (also the kinds the manifest does not use, so that their
      absence is a statement and not an accident of the type);
    - [Manifest]: the module [setup.py] as a syntax tree, statement by
      statement as in the source;
    - [PyEval]: an evaluator for the fragment, over a state holding the
      module's globals (a [gmap]) and the calls [setup] has received;
    - [Declared]: what a run of the manifest declares, read off the
      final state.

    The evaluator models the statements of the manifest in an
    environment where setuptools can be imported, and [setup] up to
    the receipt of its keyword arguments.  The properties below are
    about what the manifest declares and about its own statements,
    not about what setuptools does with the declaration. *)

From Stdlib Require Import String Ascii List Bool.
From stdpp Require Import base gmap strings.
Import ListNotations.
Local Open Scope string_scope.
Local Open Scope list_scope.

(** ** Syntax *)

Module PyAst.

(** Expressions.  [Constant] is a string literal, the only literal
    kind of the manifest; [keywords] keeps the order in which the
    keyword arguments are written. *)
Inductive expr : Type :=
| Name (id : string)
| Constant (s : string)
| ListE (elts : list expr)
| Attribute (value : expr) (attr : string)
| Call (func : expr) (args : list expr) (keywords : list (string * expr))
| Await (value : expr).

(** Statements.  [ImportFrom m n] is [from m import n]. *)
Inductive stmt : Type :=
| Import (module : string)
| ImportFrom (module : string) (name : string)
| Expr (value : expr)
| Assign (target : string) (value : expr)
| Pass
| If (test : expr) (body orelse : list stmt)
| While (test : expr) (body : list stmt)
| For (target : string) (iter : expr) (body : list stmt)
| Raise (exc : expr)
| Try (body handler : list stmt)
| Return (value : expr)
| FunctionDef (name : string) (params : list string) (body : list stmt)
| AsyncFunctionDef (name : string) (params : list string) (body : list stmt)
| ClassDef (name : string) (bases : list expr) (body : list stmt).

(** The kind of a statement, as Python's [ast] module names it. *)
Inductive stmt_kind : Type :=
| KImport | KImportFrom | KExpr | KAssign | KPass | KIf | KWhile | KFor
| KRaise | KTry | KReturn | KFunctionDef | KAsyncFunctionDef | KClassDef.

Definition kind_of (s : stmt) : stmt_kind :=
  match s with
  | Import _ => KImport
  | ImportFrom _ _ => KImportFrom
  | Expr _ => KExpr
  | Assign _ _ => KAssign
  | Pass => KPass
  | If _ _ _ => KIf
  | While _ _ => KWhile
  | For _ _ _ => KFor
  | Raise _ => KRaise
  | Try _ _ => KTry
  | Return _ => KReturn
  | FunctionDef _ _ _ => KFunctionDef
  | AsyncFunctionDef _ _ _ => KAsyncFunctionDef
  | ClassDef _ _ _ => KClassDef
  end.

Definition kind_eqb (k1 k2 : stmt_kind) : bool :=
  match k1, k2 with
  | KImport, KImport | KImportFrom, KImportFrom | KExpr, KExpr
  | KAssign, KAssign | KPass, KPass | KIf, KIf | KWhile, KWhile
  | KFor, KFor | KRaise, KRaise | KTry, KTry | KReturn, KReturn
  | KFunctionDef, KFunctionDef | KAsyncFunctionDef, KAsyncFunctionDef
  | KClassDef, KClassDef => true
  | _, _ => false
  end.

(** Every expression nested in [e], [e] first, in source order. *)
Fixpoint subexprs (e : expr) : list expr :=
  e ::
  match e with
  | Name _ | Constant _ => []
  | ListE elts => flat_map subexprs elts
  | Attribute v _ => subexprs v
  | Call f args kws =>
      subexprs f ++ flat_map subexprs args
                 ++ flat_map (fun kw => subexprs (snd kw)) kws
  | Await v => subexprs v
  end.

(** The expressions a statement holds directly (not those of the
    statements nested in it). *)
Definition own_exprs (s : stmt) : list expr :=
  match s with
  | Expr v | Assign _ v | Raise v | Return v => [v]
  | If t _ _ | While t _ => [t]
  | For _ it _ => [it]
  | ClassDef _ bases _ => bases
  | Import _ | ImportFrom _ _ | Pass | Try _ _
  | FunctionDef _ _ _ | AsyncFunctionDef _ _ _ => []
  end.

(** Every statement nested in [s], [s] first, in source order. *)
Fixpoint substmts (s : stmt) : list stmt :=
  s ::
  match s with
  | If _ b o | Try b o => flat_map substmts b ++ flat_map substmts o
  | While _ b | For _ _ b | FunctionDef _ _ b | AsyncFunctionDef _ _ b
  | ClassDef _ _ b => flat_map substmts b
  | Import _ | ImportFrom _ _ | Expr _ | Assign _ _ | Pass | Raise _
  | Return _ => []
  end.

(** The statements directly nested in [s]. *)
Definition children (s : stmt) : list stmt :=
  match s with
  | If _ b o | Try b o => b ++ o
  | While _ b | For _ _ b | FunctionDef _ _ b | AsyncFunctionDef _ _ b
  | ClassDef _ _ b => b
  | Import _ | ImportFrom _ _ | Expr _ | Assign _ _ | Pass | Raise _
  | Return _ => []
  end.

Definition all_stmts (m : list stmt) : list stmt := flat_map substmts m.

Definition all_exprs (m : list stmt) : list expr :=
  flat_map (fun s => flat_map subexprs (own_exprs s)) (all_stmts m).

Definition has_kind (k : stmt_kind) (m : list stmt) : bool :=
  existsb (fun s => kind_eqb (kind_of s) k) (all_stmts m).

Definition is_attribute (e : expr) : bool :=
  match e with Attribute _ _ => true | _ => false end.

Definition is_await (e : expr) : bool :=
  match e with Await _ => true | _ => false end.

Definition is_constant (e : expr) : bool :=
  match e with Constant _ => true | _ => false end.

Definition is_call (e : expr) : bool :=
  match e with Call _ _ _ => true | _ => false end.

End PyAst.

(** ** The manifest *)

Module Manifest.
Import PyAst.

(** Lines 8-16 of [setup.py]: the list literal given as
    [install_requires]. *)
Definition install_requires_literal : expr :=
  ListE [ Constant "numpy";
          Constant "pandas";
          Constant "scipy";
          Constant "pyabf";
          Constant "glob";
          Constant "seaborn";
          Constant "matplotlib" ].

(** Lines 4-17: the keyword arguments of the call, in source order. *)
Definition setup_keywords : list (string * expr) :=
  [ ("name", Constant "patchclamp");
    ("version", Constant "0.1");
    ("author", Constant "Eamon Byrne");
    ("packages", Call (Name "find_packages") [] []);
    ("install_requires", install_requires_literal) ].

Definition setup_call : expr := Call (Name "setup") [] setup_keywords.

(** The whole module, one element per top-level statement. *)
Definition setup_py : list stmt :=
  [ ImportFrom "setuptools" "find_packages";
    ImportFrom "setuptools" "setup";
    Expr setup_call ].

End Manifest.

(** ** Evaluation *)

Module PyEval.
Import PyAst.

(** The two callables of [setuptools] the manifest imports. *)
Inductive builtin : Type := FindPackages | Setup.

(** Run-time values.  [VDist attrs] is the distribution object that
    [setup] returns, holding the keyword arguments it received. *)
Inductive value : Type :=
| VNone
| VStr (s : string)
| VList (items : list value)
| VModule (name : string)
| VBuiltin (b : builtin)
| VDist (attrs : list (string * value)).

(** Exceptions.  [Unsupported] marks a construct outside the evaluated
    fragment (loops, definitions, [await], attributes of values other
    than modules); it is not a Python exception. *)
Inductive exn : Type :=
| NameError (id : string)
| TypeError
| ModuleNotFoundError (module : string)
| ImportError (module name : string)
| AttributeError (attr : string)
| Raised (v : value)
| Unsupported.

(** Whether an exception comes from a [raise] statement. *)
Definition is_raised (e : exn) : bool :=
  match e with
  | Raised _ => true
  | _ => false
  end.

(** The interpreter state: the module's global namespace and the
    keyword arguments of every [setup] call so far, oldest first. *)
Record state : Type := mkState {
  globals : gmap string value;
  setup_calls : list (list (string * value))
}.

Definition initial : state :=
  {| globals := ∅; setup_calls := [] |}.

Definition bind_global (x : string) (v : value) (st : state) : state :=
  {| globals := <[x := v]> (globals st); setup_calls := setup_calls st |}.

Definition record_setup (kws : list (string * value)) (st : state) : state :=
  {| globals := globals st; setup_calls := setup_calls st ++ [kws] |}.

(** A computation ends with a value or with a raised exception; the
    state reached is kept in both cases. *)
Inductive result (A : Type) : Type :=
| Ok (a : A) (st : state)
| Err (e : exn) (st : state).
Arguments Ok {A} a st.
Arguments Err {A} e st.

(** A result is quiet when it is not an exception thrown by a
    [raise] statement. *)
Definition quiet {A} (r : result A) : Prop :=
  match r with
  | Ok _ _ => True
  | Err e _ => is_raised e = false
  end.

Definition M (A : Type) : Type := state -> result A.

Definition ret {A} (a : A) : M A := fun st => Ok a st.

Definition raise {A} (e : exn) : M A := fun st => Err e st.

Definition bind {A B} (m : M A) (k : A -> M B) : M B :=
  fun st =>
    match m st with
    | Ok a st' => k a st'
    | Err e st' => Err e st'
    end.

Notation "x <~ m ;; k" := (bind m (fun x => k))
  (at level 100, m at next level, right associativity).

(** The namespace of [setuptools], restricted to what the manifest
    imports.  The model is of an interpreter in which setuptools is
    installed and the import machinery is available: an import that
    fails because the package is missing, or because the namespace has
    no usable [__import__], is outside it. *)
Definition module_attr (m name : string) : M value :=
  if String.eqb m "setuptools" then
    if String.eqb name "find_packages" then ret (VBuiltin FindPackages)
    else if String.eqb name "setup" then ret (VBuiltin Setup)
    else raise (ImportError m name)
  else raise (ModuleNotFoundError m).

Definition import_module (m : string) : M value :=
  if String.eqb m "setuptools" then ret (VModule m)
  else raise (ModuleNotFoundError m).

Definition get_attr (v : value) (attr : string) : M value :=
  match v with
  | VModule m =>
      fun st =>
        match module_attr m attr st with
        | Ok a st' => Ok a st'
        | Err _ st' => Err (AttributeError attr) st'
        end
  | _ => raise Unsupported
  end.

Definition truthy (v : value) : bool :=
  match v with
  | VNone => false
  | VStr s => negb (String.eqb s EmptyString)
  | VList [] => false
  | _ => true
  end.

Section WithDiscovery.

(** [find_packages] of setuptools walks the directory tree of the
    project; its result depends on the arguments and on the file
    system, which is outside the manifest.  It is a parameter here. *)
Variable find_packages : list value -> list (string * value) -> list string.

(** Calling a value.  [setup] takes keyword arguments only.  It is
    modelled up to the receipt of its arguments: the call records them
    and returns the distribution.  What setuptools does with them
    afterwards (reading the command line, running the commands,
    exiting) is outside the model. *)
Definition call (f : value) (args : list value)
    (kws : list (string * value)) : M value :=
  match f with
  | VBuiltin FindPackages => ret (VList (map VStr (find_packages args kws)))
  | VBuiltin Setup =>
      match args with
      | [] => fun st => Ok (VDist kws) (record_setup kws st)
      | _ :: _ => raise TypeError
      end
  | _ => raise TypeError
  end.

(** Expressions, evaluated left to right: the callee, then the
    positional arguments, then the keyword arguments. *)
Fixpoint eval (e : expr) : M value :=
  match e with
  | Name id =>
      fun st =>
        match globals st !! id with
        | Some v => Ok v st
        | None => Err (NameError id) st
        end
  | Constant s => ret (VStr s)
  | ListE elts =>
      vs <~ (fix eval_list (es : list expr) : M (list value) :=
               match es with
               | [] => ret []
               | e' :: es' =>
                   v <~ eval e' ;; vs <~ eval_list es' ;; ret (v :: vs)
               end) elts ;;
      ret (VList vs)
  | Attribute v attr => o <~ eval v ;; get_attr o attr
  | Call f args kws =>
      fv <~ eval f ;;
      avs <~ (fix eval_list (es : list expr) : M (list value) :=
                match es with
                | [] => ret []
                | e' :: es' =>
                    v <~ eval e' ;; vs <~ eval_list es' ;; ret (v :: vs)
                end) args ;;
      kvs <~ (fix eval_kws (ks : list (string * expr))
                : M (list (string * value)) :=
                match ks with
                | [] => ret []
                | (k, e') :: ks' =>
                    v <~ eval e' ;; vs <~ eval_kws ks' ;; ret ((k, v) :: vs)
                end) kws ;;
      call fv avs kvs
  | Await _ => raise Unsupported
  end.

(** The two loops of [eval], as functions of their own. *)
Fixpoint eval_list (es : list expr) : M (list value) :=
  match es with
  | [] => ret []
  | e :: es' => v <~ eval e ;; vs <~ eval_list es' ;; ret (v :: vs)
  end.

Fixpoint eval_kws (ks : list (string * expr)) : M (list (string * value)) :=
  match ks with
  | [] => ret []
  | (k, e) :: ks' => v <~ eval e ;; vs <~ eval_kws ks' ;; ret ((k, v) :: vs)
  end.

(** Statements.  A block runs its statements in order and stops at the
    first exception; [Try] runs its handler when the body raises. *)
Fixpoint exec (s : stmt) : M unit :=
  let exec_block :=
    fix exec_block (b : list stmt) : M unit :=
      match b with
      | [] => ret tt
      | s' :: b' => _ <~ exec s' ;; exec_block b'
      end in
  match s with
  | Import m =>
      v <~ import_module m ;; fun st => Ok tt (bind_global m v st)
  | ImportFrom m name =>
      v <~ module_attr m name ;; fun st => Ok tt (bind_global name v st)
  | Expr e => _ <~ eval e ;; ret tt
  | Assign x e => v <~ eval e ;; fun st => Ok tt (bind_global x v st)
  | Pass => ret tt
  | If t b o =>
      c <~ eval t ;; if truthy c then exec_block b else exec_block o
  | Raise e => v <~ eval e ;; raise (Raised v)
  | Try b h =>
      fun st =>
        match exec_block b st with
        | Ok u st' => Ok u st'
        | Err _ st' => exec_block h st'
        end
  | While _ _ | For _ _ _ | Return _ | FunctionDef _ _ _
  | AsyncFunctionDef _ _ _ | ClassDef _ _ _ => raise Unsupported
  end.

Fixpoint exec_module (m : list stmt) : M unit :=
  match m with
  | [] => ret tt
  | s :: m' => _ <~ exec s ;; exec_module m'
  end.

(** Running [python setup.py]: the module is executed from the empty
    namespace. *)
Definition run (m : list stmt) : result unit := exec_module m initial.

End WithDiscovery.

End PyEval.

(** ** What the manifest declares *)

Module Declared.
Local Open Scope nat_scope.
Import PyAst Manifest PyEval.

(** The value bound to keyword [k], as a Python dict built from the
    keyword arguments would answer. *)
Fixpoint keyword {A} (k : string) (kws : list (string * A)) : option A :=
  match kws with
  | [] => None
  | (k', v) :: kws' => if String.eqb k k' then Some v else keyword k kws'
  end.

(** A list of strings, when the value is one. *)
Fixpoint strings_of (vs : list value) : option (list string) :=
  match vs with
  | [] => Some []
  | VStr s :: vs' =>
      match strings_of vs' with
      | Some ss => Some (s :: ss)
      | None => None
      end
  | _ :: _ => None
  end.

Definition string_list (v : value) : option (list string) :=
  match v with
  | VList vs => strings_of vs
  | _ => None
  end.

Section WithDiscovery.
Variable find_packages : list value -> list (string * value) -> list string.

(** The state in which the run of [setup.py] ends, whether it ends
    normally or not. *)
Definition final_state : state :=
  match run find_packages setup_py with
  | Ok _ st | Err _ st => st
  end.

(** The keyword arguments of the one [setup] call of a run; [None]
    when [setup] was not called exactly once. *)
Definition received : option (list (string * value)) :=
  match setup_calls final_state with
  | [kws] => Some kws
  | _ => None
  end.

(** One field of the declaration. *)
Definition metadata (k : string) : option value :=
  match received with
  | Some kws => keyword k kws
  | None => None
  end.

(** The declared runtime dependencies, in the order written. *)
Definition install_requires : option (list string) :=
  match metadata "install_requires" with
  | Some v => string_list v
  | None => None
  end.

End WithDiscovery.

(** The keyword names of every call in the module, in source order. *)
Definition keywords_of (e : expr) : list string :=
  match e with
  | Call _ _ kws => map fst kws
  | _ => []
  end.

Definition all_keywords (m : list stmt) : list string :=
  flat_map keywords_of (all_exprs m).

(** The callee of every call in the module, in source order. *)
Definition callee_of (e : expr) : list expr :=
  match e with
  | Call f _ _ => [f]
  | _ => []
  end.

Definition call_targets (m : list stmt) : list expr :=
  flat_map callee_of (all_exprs m).

(** The names the module binds by an import, in source order. *)
Definition imported_name (s : stmt) : list string :=
  match s with
  | Import m => [m]
  | ImportFrom _ name => [name]
  | _ => []
  end.

Definition imported_names (m : list stmt) : list string :=
  flat_map imported_name (all_stmts m).

(** Membership of a string in a list of strings, decided. *)
Definition mentions (k : string) (l : list string) : bool :=
  existsb (String.eqb k) l.

(** The six dependencies as the specification enumerates them:
    numerical arrays, tabular data, scientific computing, patch-clamp
    file reader, statistical plotting, general plotting. *)
Definition spec_dependencies : list string :=
  [ "numpy"; "pandas"; "scipy"; "pyabf"; "seaborn"; "matplotlib" ].

(** *** Requirement strings

    A requirement is a distribution name, optionally followed by
    extras in brackets, a version specifier, a URL after [@] or an
    environment marker after [;].  A bare name is made of letters,
    digits, [.], [_] and [-], and begins and ends with a letter or a
    digit. *)

Definition is_alnum (c : ascii) : bool :=
  let n := nat_of_ascii c in
  (Nat.leb 48 n && Nat.leb n 57) || (Nat.leb 65 n && Nat.leb n 90)
  || (Nat.leb 97 n && Nat.leb n 122).

Definition is_name_char (c : ascii) : bool :=
  is_alnum c || Ascii.eqb c "."%char || Ascii.eqb c "_"%char
  || Ascii.eqb c "-"%char.

Definition last_char (s : string) : option ascii :=
  List.last (map Some (list_ascii_of_string s)) None.

Definition is_bare_name (s : string) : bool :=
  match s with
  | EmptyString => false
  | String c _ =>
      is_alnum c
      && forallb is_name_char (list_ascii_of_string s)
      && match last_char s with Some l => is_alnum l | None => false end
  end.

(** The characters that begin a version specifier, an extras list, a
    URL or a marker. *)
Definition specifier_chars : list ascii :=
  list_ascii_of_string "=<>~![];@() ".

Definition has_specifier (s : string) : bool :=
  existsb (fun c => existsb (Ascii.eqb c) specifier_chars)
          (list_ascii_of_string s).

(** The keyword arguments [setup] receives, for a given discovery. *)
Definition expected_keywords
    (fp : list value -> list (string * value) -> list string)
  : list (string * value) :=
  [ ("name", VStr "patchclamp");
    ("version", VStr "0.1");
    ("author", VStr "Eamon Byrne");
    ("packages", VList (map VStr (fp [] [])));
    ("install_requires",
     VList (map VStr [ "numpy"; "pandas"; "scipy"; "pyabf"; "glob";
                       "seaborn"; "matplotlib" ])) ].

Definition expected_globals : gmap string value :=
  <["setup" := VBuiltin Setup]>
    (<["find_packages" := VBuiltin FindPackages]> ∅).

(** [declares_exactly deps fp]: the run declares the dependencies
    [deps], each once, and no other entry. *)
Definition declares_exactly (deps : list string)
    (fp : list value -> list (string * value) -> list string) : Prop :=
  exists l, install_requires fp = Some l
            /\ length l = length deps
            /\ (forall d, In d l <-> In d deps).

(** The state in which the statements of the module leave the
    namespace of [st].  Only the bindings made by the statements of
    the module are modelled; what the interpreter itself adds to a
    namespace before it executes code in it ([__builtins__], when it
    is missing) is not. *)
Definition state_after
    (fp : list value -> list (string * value) -> list string)
    (st : state) : state :=
  match exec_module fp setup_py st with
  | Ok _ st' | Err _ st' => st'
  end.

(** A namespace in which code can be executed as it is: it binds
    [__builtins__], so the interpreter adds nothing to it. *)
Definition has_builtins (st : state) : Prop :=
  is_Some (globals st !! "__builtins__").

(** A namespace that binds [__builtins__] and [__name__], two of the
    names bound when a script is run; the others ([__file__],
    [__doc__], ...) play no part here. *)
Definition script_namespace : state :=
  bind_global "__builtins__" (VModule "builtins")
    (bind_global "__name__" (VStr "__main__") initial).

(** Two discoveries that agree when called without arguments and
    differ otherwise. *)
Definition discover_flat (_ : list value) (_ : list (string * value))
  : list string := ["patchclamp"].

Definition discover_where (args : list value) (_ : list (string * value))
  : list string :=
  match args with
  | [] => ["patchclamp"]
  | _ :: _ => []
  end.

End Declared.

(** ** Properties *)

Import PyAst Manifest PyEval Declared.

(** *** The run of the manifest *)

(** After the two imports the namespace holds the two callables. *)
Lemma imports_run fp st :
  exec_module fp (firstn 2 setup_py) st
  = Ok tt (bind_global "setup" (VBuiltin Setup)
             (bind_global "find_packages" (VBuiltin FindPackages) st)).
Proof. reflexivity. Qed.

Lemma lookup_setup : expected_globals !! "setup" = Some (VBuiltin Setup).
Proof. unfold expected_globals. apply lookup_insert_eq. Qed.

Lemma lookup_find_packages :
  expected_globals !! "find_packages" = Some (VBuiltin FindPackages).
Proof.
  unfold expected_globals.
  rewrite lookup_insert_ne by discriminate.
  apply lookup_insert_eq.
Qed.

(** The call of [setup], run in a namespace that binds the two
    imported names, records the keyword arguments and changes nothing
    else. *)
Lemma setup_call_run fp st :
  globals st !! "setup" = Some (VBuiltin Setup) ->
  globals st !! "find_packages" = Some (VBuiltin FindPackages) ->
  eval fp setup_call st
  = Ok (VDist (expected_keywords fp))
       (record_setup (expected_keywords fp) st).
Proof.
  intros Hs Hf.
  unfold setup_call, setup_keywords, install_requires_literal.
  cbn [eval]. unfold bind at 1. cbn beta iota. rewrite Hs.
  unfold bind, ret. cbn beta iota. rewrite Hf. reflexivity.
Qed.

(** Running two blocks in sequence: the second starts in the state
    the first ends in, and is skipped when the first raises. *)
Lemma exec_module_app fp m1 m2 st :
  exec_module fp (m1 ++ m2) st
  = match exec_module fp m1 st with
    | Ok _ st' => exec_module fp m2 st'
    | Err e st' => Err e st'
    end.
Proof.
  revert st. induction m1 as [|s m1 IH]; intros st; [reflexivity|].
  cbn [app exec_module]. unfold bind.
  destruct (exec fp s st) as [u st'|e st']; [apply IH | reflexivity].
Qed.

(** In the modelled environment the module, started in any state,
    binds the two imported names and then hands [setup] its keyword
    arguments: the imports bind the names the call needs before it is
    evaluated. *)
Lemma exec_setup_py fp st :
  exec_module fp setup_py st
  = Ok tt (record_setup (expected_keywords fp)
             (bind_global "setup" (VBuiltin Setup)
                (bind_global "find_packages" (VBuiltin FindPackages) st))).
Proof.
  change setup_py with (firstn 2 setup_py ++ [Expr setup_call]).
  rewrite exec_module_app, imports_run.
  cbn [exec_module exec]. unfold bind.
  rewrite setup_call_run; [reflexivity| |]; cbn [globals bind_global].
  - apply lookup_insert_eq.
  - rewrite lookup_insert_ne by discriminate. apply lookup_insert_eq.
Qed.

(** In the modelled environment the run from the empty namespace
    ends with the namespace of the imports and one recorded call. *)
Lemma run_setup_py fp :
  run fp setup_py
  = Ok tt {| globals := expected_globals;
             setup_calls := [expected_keywords fp] |}.
Proof. unfold run. rewrite exec_setup_py. reflexivity. Qed.

Lemma final_state_eq fp :
  final_state fp = {| globals := expected_globals;
                      setup_calls := [expected_keywords fp] |}.
Proof. unfold final_state. now rewrite run_setup_py. Qed.

Lemma received_eq fp : received fp = Some (expected_keywords fp).
Proof. unfold received. now rewrite final_state_eq. Qed.

Lemma metadata_eq fp k : metadata fp k = keyword k (expected_keywords fp).
Proof. unfold metadata. now rewrite received_eq. Qed.

Lemma install_requires_eq fp :
  install_requires fp
  = Some [ "numpy"; "pandas"; "scipy"; "pyabf"; "glob"; "seaborn";
           "matplotlib" ].
Proof. unfold install_requires. rewrite metadata_eq. reflexivity. Qed.

(** *** Syntactic facts about the module *)

(** [has_kind] decides whether a statement of kind [k] occurs at any
    depth. *)
Lemma kind_eqb_eq k1 k2 : kind_eqb k1 k2 = true <-> k1 = k2.
Proof. split; [destruct k1, k2; (reflexivity || discriminate) | intros ->; now destruct k2]. Qed.

Lemma has_kind_false k m :
  has_kind k m = false <-> (forall s, In s (all_stmts m) -> kind_of s <> k).
Proof.
  unfold has_kind. split.
  - intros H s Hin Hk.
    assert (existsb (fun s => kind_eqb (kind_of s) k) (all_stmts m) = true) as E.
    { apply existsb_exists. exists s. split; [exact Hin | now apply kind_eqb_eq]. }
    congruence.
  - intros H.
    destruct (existsb _ _) eqn:E; [|reflexivity].
    apply existsb_exists in E as (s & Hin & Hk).
    apply kind_eqb_eq in Hk. now destruct (H s Hin).
Qed.

(** The module has three statements, none nested in another. *)
Lemma all_stmts_setup_py : all_stmts setup_py = setup_py.
Proof. reflexivity. Qed.

Lemma kinds_setup_py :
  map kind_of (all_stmts setup_py) = [KImportFrom; KImportFrom; KExpr].
Proof. reflexivity. Qed.

(** A statement kind other than the two of the manifest does not
    occur in it. *)
Lemma absent_kind k :
  k <> KImportFrom -> k <> KExpr -> has_kind k setup_py = false.
Proof.
  intros H1 H2. apply has_kind_false. intros s Hin Hk.
  assert (In (kind_of s) (map kind_of (all_stmts setup_py))) as Hm
    by now apply in_map.
  rewrite kinds_setup_py in Hm. cbn in Hm.
  destruct Hm as [E|[E|[E|[]]]]; congruence.
Qed.

(** *** Exceptions and the syntax that raises them *)

(** Induction over expressions, with the hypothesis for every
    argument of a list or of a call. *)
Lemma expr_nested_ind (P : expr -> Prop) :
  (forall id, P (Name id)) ->
  (forall s, P (Constant s)) ->
  (forall elts, Forall P elts -> P (ListE elts)) ->
  (forall v attr, P v -> P (Attribute v attr)) ->
  (forall f args kws, P f -> Forall P args ->
     Forall (fun kw => P (snd kw)) kws -> P (Call f args kws)) ->
  (forall v, P v -> P (Await v)) ->
  forall e, P e.
Proof.
  intros HN HC HL HA HCall HAw.
  fix IH 1. intros [id|s|elts|v attr|f args kws|v].
  - apply HN.
  - apply HC.
  - apply HL. induction elts as [|e elts IHl]; constructor; [apply IH | exact IHl].
  - apply HA, IH.
  - apply HCall; [apply IH| |].
    + induction args as [|e args IHl]; constructor; [apply IH | exact IHl].
    + induction kws as [|[k e] kws IHl]; constructor; [apply IH | exact IHl].
  - apply HAw, IH.
Qed.

(** Induction over statements, with the hypothesis for every
    statement directly nested. *)
Lemma stmt_nested_ind (P : stmt -> Prop) :
  (forall s, Forall P (children s) -> P s) -> forall s, P s.
Proof.
  intros Hstep. fix IH 1.
  assert (forall b, Forall P b) as IHb.
  { induction b as [|s b IHb]; constructor; [apply IH | exact IHb]. }
  intros s. apply Hstep.
  destruct s; cbn [children];
    first [apply Forall_app_2; apply IHb | apply IHb].
Qed.

Lemma substmts_children s :
  substmts s = s :: all_stmts (children s).
Proof.
  unfold all_stmts.
  destruct s; cbn [substmts children]; rewrite ?flat_map_app; reflexivity.
Qed.

Lemma has_kind_app k m1 m2 :
  has_kind k (m1 ++ m2) = has_kind k m1 || has_kind k m2.
Proof. unfold has_kind, all_stmts. now rewrite flat_map_app, existsb_app. Qed.

Lemma has_kind_cons k s m :
  has_kind k (s :: m)
  = kind_eqb (kind_of s) k || has_kind k (children s) || has_kind k m.
Proof.
  change (s :: m) with ([s] ++ m). rewrite has_kind_app. f_equal.
  unfold has_kind, all_stmts. cbn [flat_map]. rewrite app_nil_r.
  rewrite substmts_children. reflexivity.
Qed.

Section Quiet.
Variable fp : list value -> list (string * value) -> list string.

Lemma quiet_bind {A B} (m : M A) (k : A -> M B) st :
  quiet (m st) -> (forall a st', quiet (k a st')) -> quiet (bind m k st).
Proof.
  unfold bind. intros Hm Hk.
  destruct (m st) as [a st'|e st']; [apply Hk | exact Hm].
Qed.

Lemma module_attr_quiet m name st : quiet (module_attr m name st).
Proof.
  unfold module_attr.
  repeat match goal with |- context [if ?b then _ else _] => destruct b end;
    reflexivity.
Qed.

Lemma get_attr_quiet v attr st : quiet (get_attr v attr st).
Proof.
  destruct v; try reflexivity. cbn [get_attr].
  destruct (module_attr name attr st); reflexivity.
Qed.

Lemma call_quiet f args kws st : quiet (call fp f args kws st).
Proof.
  destruct f as [| | | |[]|]; try reflexivity.
  destruct args; reflexivity.
Qed.

Lemma eval_list_quiet es :
  Forall (fun e => forall st, quiet (eval fp e st)) es ->
  forall st, quiet (eval_list fp es st).
Proof.
  induction 1 as [|e es He _ IH]; intros st; [exact I|].
  cbn [eval_list]. apply quiet_bind; [apply He|]. intros v st1.
  apply quiet_bind; [apply IH|]. intros vs st2. exact I.
Qed.

Lemma eval_kws_quiet ks :
  Forall (fun kw => forall st, quiet (eval fp (snd kw) st)) ks ->
  forall st, quiet (eval_kws fp ks st).
Proof.
  induction 1 as [|[k e] ks He _ IH]; intros st; [exact I|].
  cbn [eval_kws]. apply quiet_bind; [apply He|]. intros v st1.
  apply quiet_bind; [apply IH|]. intros vs st2. exact I.
Qed.

(** Evaluating an expression never ends in an exception of a [raise]
    statement: expressions hold no statement. *)
Lemma eval_quiet e : forall st, quiet (eval fp e st).
Proof.
  induction e as [id|s|elts IH|v attr IH|f args kws IHf IHa IHk|v IH]
    using expr_nested_ind; intros st.
  - cbn [eval]. destruct (globals st !! id); reflexivity.
  - exact I.
  - change (eval fp (ListE elts))
      with (vs <~ eval_list fp elts ;; ret (VList vs)).
    apply quiet_bind; [now apply eval_list_quiet|]. intros; exact I.
  - cbn [eval]. apply quiet_bind; [apply IH|]. intros; apply get_attr_quiet.
  - change (eval fp (Call f args kws))
      with (fv <~ eval fp f ;; avs <~ eval_list fp args ;;
            kvs <~ eval_kws fp kws ;; call fp fv avs kvs).
    apply quiet_bind; [apply IHf|]. intros fv st1.
    apply quiet_bind; [now apply eval_list_quiet|]. intros avs st2.
    apply quiet_bind; [now apply eval_kws_quiet|]. intros kvs st3.
    apply call_quiet.
  - reflexivity.
Qed.

(** A block is run as a module is. *)
Lemma exec_block_quiet b :
  Forall (fun s => has_kind KRaise [s] = false ->
                   forall st, quiet (exec fp s st)) b ->
  has_kind KRaise b = false ->
  forall st, quiet (exec_module fp b st).
Proof.
  induction 1 as [|s b Hs _ IH]; intros Hfree st; [exact I|].
  change (s :: b) with ([s] ++ b) in Hfree.
  rewrite has_kind_app in Hfree. apply orb_false_elim in Hfree as [H1 H2].
  cbn [exec_module]. apply quiet_bind; [now apply Hs|]. intros _ st'.
  now apply IH.
Qed.

Lemma exec_quiet s :
  has_kind KRaise [s] = false -> forall st, quiet (exec fp s st).
Proof.
  induction s as [s IH] using stmt_nested_ind. intros Hfree st.
  rewrite has_kind_cons in Hfree.
  apply orb_false_elim in Hfree as [Hfree _].
  apply orb_false_elim in Hfree as [Hs Hc].
  destruct s as [m|m n|e|x e| |t b o|t b|x it b|e|b h|e|n ps b|n ps b|n bs b];
    cbn [children] in IH, Hc; try discriminate Hs; try reflexivity.
  - cbn [exec]. apply quiet_bind; [|intros; exact I].
    unfold import_module. destruct (String.eqb m "setuptools"); reflexivity.
  - cbn [exec]. apply quiet_bind; [apply module_attr_quiet | intros; exact I].
  - cbn [exec]. apply quiet_bind; [apply eval_quiet | intros; exact I].
  - cbn [exec]. apply quiet_bind; [apply eval_quiet | intros; exact I].
  - rewrite has_kind_app in Hc. apply orb_false_elim in Hc as [Hb Ho].
    apply Forall_app in IH as [IHb IHo].
    change (exec fp (If t b o))
      with (c <~ eval fp t ;;
            if truthy c then exec_module fp b else exec_module fp o).
    apply quiet_bind; [apply eval_quiet|]. intros c st'.
    destruct (truthy c); now apply exec_block_quiet.
  - rewrite has_kind_app in Hc. apply orb_false_elim in Hc as [Hb Ho].
    apply Forall_app in IH as [IHb IHo].
    change (exec fp (Try b h) st)
      with (match exec_module fp b st with
            | Ok u st' => Ok u st'
            | Err _ st' => exec_module fp h st'
            end).
    destruct (exec_module fp b st) as [u st'|e st']; [exact I|].
    now apply exec_block_quiet.
Qed.

(** A module in which no [raise] statement occurs at any depth never
    ends in an exception of a [raise] statement, from any state. *)
Theorem raise_free_quiet m :
  has_kind KRaise m = false -> forall st, quiet (exec_module fp m st).
Proof.
  apply exec_block_quiet. apply Forall_forall. intros s _. apply exec_quiet.
Qed.

End Quiet.

(** *** The declaration: name, version, author, keywords *)

(** C2. The [setup] call declares the distribution name to be exactly
    the string 'patchclamp' and the version to be exactly the string
    '0.1': in the source the two keywords are these string literals,
    and for every package discovery the run hands [setup] these two
    strings. *)
Theorem C2_name_and_version :
  keyword "name" setup_keywords = Some (Constant "patchclamp")
  /\ keyword "version" setup_keywords = Some (Constant "0.1")
  /\ forall fp,
       metadata fp "name" = Some (VStr "patchclamp")
       /\ metadata fp "version" = Some (VStr "0.1").
Proof.
  repeat split; try reflexivity; rewrite metadata_eq; reflexivity.
Qed.

(** C5. The keyword arguments of the [setup] call are exactly name,
    version, author, packages and install_requires, each once, and the
    declared author is the string 'Eamon Byrne': this holds of the
    keywords as written and of the keywords [setup] receives in every
    run. *)
Theorem C5_keywords_and_author :
  map fst setup_keywords
  = ["name"; "version"; "author"; "packages"; "install_requires"]
  /\ List.NoDup (map fst setup_keywords)
  /\ forall fp,
       (exists kws, received fp = Some kws
          /\ map fst kws
             = ["name"; "version"; "author"; "packages"; "install_requires"])
       /\ metadata fp "author" = Some (VStr "Eamon Byrne").
Proof.
  split; [reflexivity|]. split.
  - cbn. repeat (apply List.NoDup_cons; [cbn; intuition discriminate|]).
    apply List.NoDup_nil.
  - intros fp. split.
    + exists (expected_keywords fp). split; [apply received_eq | reflexivity].
    + rewrite metadata_eq. reflexivity.
Qed.

(** C4. No command-line interface is defined: no call in the module
    has a keyword entry_points, scripts or console_scripts (the only
    keywords in the module are the five of the [setup] call), and in
    every run [setup] receives none of the three. *)
Theorem C4_no_command_line_interface :
  all_keywords setup_py
  = ["name"; "version"; "author"; "packages"; "install_requires"]
  /\ forallb (fun k => negb (mentions k (all_keywords setup_py)))
             ["entry_points"; "scripts"; "console_scripts"] = true
  /\ forall fp,
       metadata fp "entry_points" = None
       /\ metadata fp "scripts" = None
       /\ metadata fp "console_scripts" = None.
Proof.
  split; [reflexivity|]. split; [reflexivity|].
  intros fp. rewrite !metadata_eq. repeat split.
Qed.

(** C10. No package names are hard-coded in the manifest: the
    packages argument is the call [find_packages()] with no positional
    and no keyword argument, it contains no string literal, the name
    it calls is the one imported from setuptools, and in every run
    [setup] receives as packages the list the discovery returns when
    called without arguments. *)
Theorem C10_packages_are_discovered :
  keyword "packages" setup_keywords = Some (Call (Name "find_packages") [] [])
  /\ filter is_constant (subexprs (Call (Name "find_packages") [] [])) = []
  /\ In (ImportFrom "setuptools" "find_packages") setup_py
  /\ forall fp,
       globals (final_state fp) !! "find_packages"
       = Some (VBuiltin FindPackages)
       /\ metadata fp "packages" = Some (VList (map VStr (fp [] []))).
Proof.
  split; [reflexivity|]. split; [reflexivity|]. split; [now left|].
  intros fp. split.
  - rewrite final_state_eq. apply lookup_find_packages.
  - rewrite metadata_eq. reflexivity.
Qed.

(** *** The dependency list *)

Lemma mentions_In k l : mentions k l = true <-> In k l.
Proof.
  unfold mentions. rewrite existsb_exists. split.
  - intros (x & Hin & E). apply String.eqb_eq in E. now subst.
  - intros Hin. exists k. split; [exact Hin | apply String.eqb_refl].
Qed.

(** The entries of the list literal are the strings the run
    declares: nothing is added, dropped or reordered on the way. *)
Lemma literal_matches_run fp :
  install_requires_literal
  = ListE (map Constant (default [] (install_requires fp))).
Proof. rewrite install_requires_eq. reflexivity. Qed.

(** C1, as stated, fails: the run does not declare exactly the six
    dependencies the specification enumerates.  Shown for the
    discovery that finds no package; the dependency list does not
    depend on it. *)
Lemma C1_six_dependencies_refuted :
  ~ declares_exactly spec_dependencies (fun _ _ => []).
Proof.
  intros (l & Hl & Hlen & _).
  rewrite install_requires_eq in Hl. injection Hl as <-.
  discriminate Hlen.
Qed.

(** C1. The code departs from the six dependencies of the claim:
    the install_requires argument declares exactly seven entries, the
    six libraries the specification enumerates (numpy, pandas, scipy,
    pyabf, seaborn, matplotlib) and, besides, the entry 'glob' of line
    13, which names a module of the standard library and not a
    distribution that can be installed. *)
Theorem C1_seven_dependencies fp :
  declares_exactly (spec_dependencies ++ ["glob"]) fp.
Proof.
  eexists. split; [apply install_requires_eq|]. split; [reflexivity|].
  intros d. cbn. intuition.
Qed.

(** C8. The install_requires list contains the literal entry 'glob',
    which is none of the six libraries of the specification; the list
    has exactly seven entries, in the order numpy, pandas, scipy,
    pyabf, glob, seaborn, matplotlib. *)
Theorem C8_glob_is_listed :
  In (Constant "glob") (subexprs install_requires_literal)
  /\ mentions "glob" spec_dependencies = false
  /\ forall fp,
       install_requires fp
       = Some ["numpy"; "pandas"; "scipy"; "pyabf"; "glob"; "seaborn";
               "matplotlib"]
       /\ (length <$> install_requires fp) = Some 7
       /\ (install_requires fp ≫= (fun l => nth_error l 4)) = Some "glob".
Proof.
  split; [cbn; tauto|]. split; [reflexivity|].
  intros fp. rewrite install_requires_eq. repeat split.
Qed.

(** A character allowed in a distribution name begins no specifier. *)
Lemma name_char_not_specifier c :
  is_name_char c = true -> existsb (Ascii.eqb c) specifier_chars = false.
Proof.
  destruct c as [b0 b1 b2 b3 b4 b5 b6 b7].
  destruct b0, b1, b2, b3, b4, b5, b6, b7;
    vm_compute; intros H; first [reflexivity | discriminate H].
Qed.

(** A bare name carries no version specifier, extras, URL or marker. *)
Lemma bare_name_no_specifier s :
  is_bare_name s = true -> has_specifier s = false.
Proof.
  unfold is_bare_name, has_specifier. destruct s as [|c s]; [discriminate|].
  intros H. apply andb_prop in H as [H _]. apply andb_prop in H as [_ H].
  revert H. generalize (list_ascii_of_string (String c s)) as cs.
  induction cs as [|a cs IH]; [reflexivity|].
  cbn [forallb existsb]. intros H. apply andb_prop in H as [Ha Hcs].
  rewrite (name_char_not_specifier a Ha). cbn. apply IH, Hcs.
Qed.

(** C9. No dependency carries a version constraint: every entry of
    the install_requires list is a bare distribution name, and none
    contains a character of a version specifier ([=], [<], [>], [~],
    [!]), of an extras list, of a URL or of a marker. *)
Theorem C9_no_version_constraint fp :
  exists l, install_requires fp = Some l
            /\ forallb is_bare_name l = true
            /\ existsb has_specifier l = false.
Proof.
  eexists. split; [apply install_requires_eq|]. split; reflexivity.
Qed.

(** *** The shape of the module *)

Lemma globals_domain fp :
  dom (globals (final_state fp)) = ({["find_packages"; "setup"]} : gset string).
Proof.
  rewrite final_state_eq. cbn [globals]. unfold expected_globals.
  rewrite !dom_insert_L, dom_empty_L. set_solver.
Qed.

(** C3. The module defines no function, no class, no algorithm and no
    data structure: its statements are, at every depth, two imports
    and one expression statement, which is the [setup] call; no
    definition, assignment or loop occurs; a run binds the two
    imported names and nothing else, and calls [setup] once. *)
Theorem C3_no_implementation :
  map kind_of (all_stmts setup_py) = [KImportFrom; KImportFrom; KExpr]
  /\ forallb (fun k => negb (has_kind k setup_py))
             [KFunctionDef; KAsyncFunctionDef; KClassDef; KAssign;
              KWhile; KFor; KReturn] = true
  /\ imported_names setup_py = ["find_packages"; "setup"]
  /\ flat_map own_exprs (all_stmts setup_py) = [setup_call]
  /\ forall fp,
       dom (globals (final_state fp))
       = ({["find_packages"; "setup"]} : gset string)
       /\ length (setup_calls (final_state fp)) = 1.
Proof.
  split; [apply kinds_setup_py|]. split.
  - cbn [forallb]. rewrite !absent_kind by discriminate. reflexivity.
  - split; [reflexivity|]. split; [reflexivity|].
    intros fp. split; [apply globals_domain|].
    now rewrite final_state_eq.
Qed.

(** C6. No operation of the module can fail, retry or surface an
    error: it contains no raise statement, no try, no loop and no
    conditional at any depth, and therefore its evaluation, from any
    state and for every package discovery, never ends in an exception
    thrown by a statement of the module.  (Whether the import of
    setuptools and the calls into it succeed is a matter of the
    environment, not of the module.) *)
Theorem C6_no_error_path :
  forallb (fun k => negb (has_kind k setup_py))
          [KRaise; KTry; KWhile; KFor; KIf] = true
  /\ forall fp st, quiet (exec_module fp setup_py st).
Proof.
  split.
  - cbn [forallb]. rewrite !absent_kind by discriminate. reflexivity.
  - intros fp st. apply raise_free_quiet.
    apply absent_kind; discriminate.
Qed.

(** C7. The module contains no class definition (hence no
    inheritance), no assignment to a global, no attribute access or
    method call (every call names a callable imported from
    setuptools), and no coroutine: no async definition and no
    await. *)
Theorem C7_no_rearchitecture_patterns :
  forallb (fun k => negb (has_kind k setup_py))
          [KClassDef; KAssign; KAsyncFunctionDef] = true
  /\ filter is_attribute (all_exprs setup_py) = []
  /\ filter is_await (all_exprs setup_py) = []
  /\ call_targets setup_py = [Name "setup"; Name "find_packages"]
  /\ imported_names setup_py = ["find_packages"; "setup"]
  /\ forall fp,
       globals (final_state fp) !! "setup" = Some (VBuiltin Setup)
       /\ globals (final_state fp) !! "find_packages"
          = Some (VBuiltin FindPackages).
Proof.
  split.
  - cbn [forallb]. rewrite !absent_kind by discriminate. reflexivity.
  - do 4 (split; [reflexivity|]).
    intros fp. rewrite final_state_eq. cbn [globals].
    split; [apply lookup_setup | apply lookup_find_packages].
Qed.

(** *** The manifest in a namespace that is not empty *)

(** X1. Executed in a namespace that already binds [__builtins__],
    the statements of the manifest rebind only [find_packages] and
    [setup]: every other global keeps the binding, or the absence of a
    binding, it had before. *)
Theorem manifest_keeps_other_globals fp st x :
  has_builtins st ->
  x <> "find_packages" -> x <> "setup" ->
  globals (state_after fp st) !! x = globals st !! x.
Proof.
  intros _ Hf Hs. unfold state_after. rewrite exec_setup_py.
  cbn [globals record_setup bind_global].
  rewrite !lookup_insert_ne by congruence. reflexivity.
Qed.

Lemma manifest_keeps_other_globals_witness :
  has_builtins script_namespace
  /\ "__name__" <> "find_packages" /\ "__name__" <> "setup"
  /\ globals (state_after discover_flat script_namespace) !! "__name__"
     = globals script_namespace !! "__name__".
Proof.
  assert (has_builtins script_namespace) as Hb.
  { unfold has_builtins, script_namespace. cbn [globals bind_global].
    rewrite lookup_insert_eq. eexists. reflexivity. }
  split; [exact Hb|]. split; [discriminate|]. split; [discriminate|].
  apply manifest_keeps_other_globals; [exact Hb | discriminate..].
Defined.

(** X2. The manifest uses the package discovery only through its
    call without arguments: two discoveries that return the same list
    for that call give the same outcome and the same final state, from
    every starting state, however they differ on other arguments. *)
Theorem manifest_uses_discovery_without_arguments fp1 fp2 :
  fp1 [] [] = fp2 [] [] ->
  forall st, exec_module fp1 setup_py st = exec_module fp2 setup_py st.
Proof.
  intros H st. rewrite !exec_setup_py. unfold expected_keywords.
  rewrite H. reflexivity.
Qed.

Lemma manifest_uses_discovery_without_arguments_witness :
  discover_flat [] [] = discover_where [] []
  /\ discover_flat [VStr "src"] [] <> discover_where [VStr "src"] []
  /\ exec_module discover_flat setup_py script_namespace
     = exec_module discover_where setup_py script_namespace.
Proof.
  split; [reflexivity|]. split; [discriminate|].
  apply manifest_uses_discovery_without_arguments. reflexivity.
Defined.

(** X3. Only the packages field depends on the project's directory
    tree: every other field [setup] receives, and the absence of every
    field it does not receive, is the same for all discoveries. *)
Theorem metadata_independent_of_discovery fp1 fp2 k :
  k <> "packages" -> metadata fp1 k = metadata fp2 k.
Proof.
  intros Hk. rewrite !metadata_eq. unfold expected_keywords.
  cbn [keyword].
  destruct (String.eqb_spec k "packages") as [->|_]; [now destruct Hk|].
  reflexivity.
Qed.

Lemma metadata_independent_of_discovery_witness :
  "install_requires" <> "packages"
  /\ metadata discover_flat "install_requires"
     = metadata (fun _ _ => []) "install_requires".
Proof.
  split; [discriminate|].
  apply metadata_independent_of_discovery. discriminate.
Defined.
